(** * AI Nutrition Analyzer: the analysis request orchestrator of [app.py]

    A shallow embedding of [app.py]: the prompt constant, [initialize_gemini],
    [analyze_food_image] and the part of [main] that builds the notes, calls
    the analysis and keeps its result in the Streamlit session.

    Python [str] values are modelled by [string], holding the UTF-8 encoding
    of the text; concatenation and the substring relation agree with Python's
    on code points. *)

From Stdlib Require Import String Ascii List Bool.
From stdpp Require Import gmap strings list fin_maps.

Local Open Scope string_scope.

(** ** Strings *)

(** The line feed written [\n] in the Python source. *)
Definition nl : string := String (ascii_of_nat 10) EmptyString.

(** [s] occurs in [t] (Python's [s in t]). *)
Definition contains (s t : string) : Prop :=
  exists pre post : string, t = pre +:+ s +:+ post.

Fixpoint starts_with (s t : string) : bool :=
  match s, t with
  | EmptyString, _ => true
  | String a s', String b t' => if Ascii.eqb a b then starts_with s' t' else false
  | String _ _, EmptyString => false
  end.

Fixpoint containsb (s t : string) : bool :=
  starts_with s t ||
  match t with
  | EmptyString => false
  | String _ t' => containsb s t'
  end.

(** Python's truth value of a [str]: true unless the string is empty. *)
Definition str_truthy (s : string) : bool :=
  match s with
  | EmptyString => false
  | String _ _ => true
  end.

(** ** The system prompt (app.py, lines 20-48) *)

Definition SYSTEM_PROMPT : string :=
"You are a certified nutrition analyst. You receive (a) a single food image and (b) optional user notes.
Your tasks:
1) Identify the food items present. If uncertain, state assumptions explicitly.
2) Estimate portion sizes (grams or common household measures) as seen; if uncertain, give a conservative range and say why.
3) Provide calories per item and a total calorie estimate.
4) Include macronutrient breakdown per item when reasonably inferable (protein, carbs, fat in grams).
5) Flag allergens or dietary considerations (e.g., nuts, dairy, gluten) if likely present; explain uncertainty.
6) Offer healthier swap suggestions or portion guidance for common goals (weight loss, maintenance, muscle gain)—keep it brief and practical.

Formatting (use exactly this structure):
- Items Detected:
  1) <Item name> — ~<portion> — ~<kcal> kcal
     • Macros (est.): P ~x g, C ~y g, F ~z g
  2) ...

- Assumptions & Uncertainty:
  • <short bullet on any visual ambiguity and its impact on estimates>

- Total Estimated Calories: ~<sum> kcal

- Notes & Tips:
  • <one-line practical advice or swap>
  • <one-line safety/allergen caveat if relevant>

Constraints & Behavior:
- If visibility is poor or items are occluded, say so and provide a best-effort range.
- Do not invent precise values when uncertain; provide ranges and label them.
- Prefer standard reference foods and typical preparation methods unless user notes say otherwise.
- Be concise but complete. Avoid long paragraphs; prefer clean bullets.".

(** ** Exceptions and outcomes *)

(** An instance of Python's [Exception] class (or of a subclass): what a
    clause [except Exception as e] binds to [e].  It carries what [str(e)]
    does: [__str__] returns a string, or raises (a failing [__str__], or one
    that returns no [str], which is a [TypeError]).

    What a [raise] carries: such an instance, or an exit outside
    [Exception].  [KeyboardInterrupt], [SystemExit] and [GeneratorExit]
    derive from [BaseException] only: they are not errors and a clause
    [except Exception] does not match them. *)
Inductive PyException : Type :=
| PyExc (exc_class : string) (exc_str : str_outcome)
with str_outcome : Type :=
| StrRet (s : string)
| StrRaise (r : raised)
with raised : Type :=
| Exc (e : PyException)
| BaseExc (name : string).

(** An exception of class [cls] whose [str] is [msg]. *)
Definition mkExc (cls msg : string) : PyException := PyExc cls (StrRet msg).

Definition exc_class (e : PyException) : string :=
  match e with PyExc cls _ => cls end.

Inductive outcome (A : Type) : Type :=
| Ret (a : A)
| Raise (r : raised).
Arguments Ret {A} a.
Arguments Raise {A} r.

(** Python's [str(e)]. *)
Definition str (e : PyException) : outcome string :=
  match e with
  | PyExc _ (StrRet s) => Ret s
  | PyExc _ (StrRaise r) => Raise r
  end.

Global Instance outcome_ret : MRet outcome := @Ret.
Global Instance outcome_bind : MBind outcome := fun A B f o =>
  match o with
  | Ret a => f a
  | Raise r => Raise r
  end.

(** Code that reads and writes a state [S] and may raise: the state reached
    is returned on both exits. *)
Definition M (S A : Type) : Type := S -> outcome A * S.

Global Instance M_ret {S} : MRet (M S) := fun A a s => (Ret a, s).
Global Instance M_bind {S} : MBind (M S) := fun A B f m s =>
  match m s with
  | (Ret a, s') => f a s'
  | (Raise r, s') => (Raise r, s')
  end.

(** A pure step that may raise, run inside stateful code. *)
Definition lift {S A} (o : outcome A) : M S A := fun s => (o, s).

(** [try: body  except Exception as e: handler e]. *)
Definition try_except_Exception {S A} (body : M S A) (handler : PyException -> M S A) : M S A :=
  fun s =>
    match body s with
    | (Raise (Exc e), s') => handler e s'
    | r => r
    end.

(** ** Python values the program handles *)

(** Values stored in the result dictionaries. *)
Inductive value : Type :=
| VBool (b : bool)
| VStr (s : string).

Definition truth_value (v : value) : bool :=
  match v with
  | VBool b => b
  | VStr s => str_truthy s
  end.

(** [d[k]] on a dictionary: [KeyError] when the key is absent. *)
Definition getitem (d : gmap string value) (k : string) : outcome value :=
  match d !! k with
  | Some v => Ret v
  | None => Raise (Exc (mkExc "KeyError" ("'" +:+ k +:+ "'")))
  end.

(** The [user_notes] argument of [analyze_food_image]: [None] (the default),
    a [str], or any other object, described by what [bool(o)] and
    [format(o, '')] do on it. *)
Inductive notes_arg : Type :=
| NotesNone
| NotesStr (s : string)
| NotesObj (truth : outcome bool) (fmt : outcome string).

Definition truthy (n : notes_arg) : outcome bool :=
  match n with
  | NotesNone => Ret false
  | NotesStr s => Ret (str_truthy s)
  | NotesObj truth _ => truth
  end.

(** The replacement field [{user_notes}] of an f-string. *)
Definition format (n : notes_arg) : outcome string :=
  match n with
  | NotesNone => Ret "None"
  | NotesStr s => Ret s
  | NotesObj _ fmt => fmt
  end.

(** ** The world outside the function *)

Definition loc := nat.
Definition image := list Byte.byte.

Section World.
(** [X]: the state private to the libraries and to the remote service. *)
Context {X : Type}.

Record world : Type := World {
  environ : gmap string string;   (* os.environ *)
  images : gmap loc image;        (* the PIL images on the heap *)
  ext : X
}.

(** [os.getenv(k)]. *)
Definition os_getenv (k : string) : M world (option string) :=
  fun w => (Ret (environ w !! k), w).

(** The items of the list passed to [generate_content]. *)
Inductive part : Type :=
| PText (s : string)
| PImage (l : loc).

(** A response of the service; [text] is a property and may raise. *)
Record Response : Type := { text : outcome string }.

(** A [genai.GenerativeModel]: its one method used here, the transport call. *)
Record GenerativeModel : Type := {
  generate_content : list part -> M world Response
}.

(** The libraries [initialize_gemini] and [main] call into. *)
Record Libraries : Type := {
  load_dotenv : M world bool;
  genai_configure : option string -> M world unit;
  genai_GenerativeModel : string -> M world GenerativeModel;
  Image_open : list Byte.byte -> M world loc
}.
End World.
Arguments world X : clear implicits.
Arguments GenerativeModel X : clear implicits.
Arguments Libraries X : clear implicits.

(** ** The program *)

Section Program.
Context {X : Type}.

(** [initialize_gemini] (lines 51-64): the key read from the environment,
    present or not, goes to [genai.configure] as it is. *)
Definition initialize_gemini (lib : Libraries X) : M (world X) (GenerativeModel X) :=
  _ ← load_dotenv lib;
  key ← os_getenv "GOOGLE_API_KEY";
  _ ← genai_configure lib key;
  genai_GenerativeModel lib "gemini-2.5-pro".

(** Line 71. *)
Definition user_message (user_notes : notes_arg) : outcome string :=
  b ← truthy user_notes;
  if b : bool
  then s ← format user_notes; Ret ("User notes: " +:+ s)
  else Ret "No additional notes provided.".

(** Line 72. *)
Definition full_prompt (user_notes : notes_arg) : outcome string :=
  um ← user_message user_notes;
  Ret (SYSTEM_PROMPT +:+ nl +:+ nl +:+ um).

(** The two dictionaries [analyze_food_image] builds (lines 77-80, 83-86). *)
Definition success_dict (t : string) : gmap string value :=
  {[ "success" := VBool true; "analysis" := VStr t ]}.

Definition failure_dict (msg : string) : gmap string value :=
  {[ "success" := VBool false; "error" := VStr msg ]}.

(** The body of the [try] (lines 70-80). *)
Definition analyze_body (model : GenerativeModel X) (image : loc) (user_notes : notes_arg)
  : M (world X) (gmap string value) :=
  prompt ← lift (full_prompt user_notes);
  response ← generate_content model [PText prompt; PImage image];
  t ← lift (text response);
  mret (success_dict t).

(** The handler (lines 82-86): [str(e)] is evaluated here, outside the
    [try]; what it raises leaves the function. *)
Definition analyze_handler (e : PyException) : M (world X) (gmap string value) :=
  msg ← lift (str e);
  mret (failure_dict msg).

(** [analyze_food_image] (lines 67-86). *)
Definition analyze_food_image (model : GenerativeModel X) (image : loc) (user_notes : notes_arg)
  : M (world X) (gmap string value) :=
  try_except_Exception
    (analyze_body model image user_notes)
    analyze_handler.
End Program.

(** The options of the health-goal select box (lines 114-117). *)
Inductive health_goal : Type := General | WeightLoss | MuscleGain | Maintenance.

Definition goal_label (g : health_goal) : string :=
  match g with
  | General => "General Info"
  | WeightLoss => "Weight Loss"
  | MuscleGain => "Muscle Gain"
  | Maintenance => "Maintenance"
  end.

(** Lines 142-147: the goal is added to the notes unless it is the general one. *)
Definition add_goal (goal : string) (user_notes : string) : string :=
  if negb (String.eqb goal "General Info")
  then if str_truthy user_notes
       then user_notes +:+ " | Goal: " +:+ goal
       else "Goal: " +:+ goal
  else user_notes.

(** What the widgets return in one run of the script. *)
Record widgets : Type := {
  ui_goal : health_goal;                      (* st.selectbox *)
  ui_uploaded_file : option (list Byte.byte); (* st.file_uploader *)
  ui_user_notes : string;                     (* st.text_area *)
  ui_analyze : bool                           (* st.button *)
}.

Section Main.
Context {X : Type}.

(** Lines 96-157 of [main]: the value bound to [result] when the analysis
    runs, [None] when there is no upload or the button is not pressed.
    The calls that only draw ([st.title], [st.markdown], [st.image],
    [st.spinner], ...) are left out; the widgets' values come in [ui]. *)
Definition request (lib : Libraries X) (ui : widgets)
  : M (world X) (option (gmap string value)) :=
  model ← initialize_gemini lib;
  let user_notes := add_goal (goal_label (ui_goal ui)) (ui_user_notes ui) in
  match ui_uploaded_file ui with
  | Some f =>
      image ← Image_open lib f;
      if ui_analyze ui
      then result ← analyze_food_image model image (NotesStr user_notes);
           mret (Some result)
      else mret None
  | None => mret None
  end.

(** One run of [main] over the session state [st.session_state] and the
    world: line 160 stores the result under ['result']; the second column
    (lines 168-169) then reads that key.  Returns what it reads. *)
Definition main (lib : Libraries X) (ui : widgets)
  : M (gmap string (gmap string value) * world X) (option (gmap string value)) :=
  fun '(session_state, w) =>
    match request lib ui w with
    | (Ret (Some result), w') =>
        let session_state' := <["result" := result]> session_state in
        (Ret (session_state' !! "result"), (session_state', w'))
    | (Ret None, w') => (Ret (session_state !! "result"), (session_state, w'))
    | (Raise r, w') => (Raise r, (session_state, w'))
    end.

(** The script is run again on every interaction; a run that raises is
    reported and the session goes on. *)
Definition reruns (lib : Libraries X) (uis : list widgets)
    (s : gmap string (gmap string value) * world X)
  : gmap string (gmap string value) * world X :=
  fold_left (fun s ui => snd (main lib ui s)) uis s.

(** The results the successive analysis requests return, oldest first. *)
Fixpoint request_log (lib : Libraries X) (uis : list widgets) (w : world X)
  : list (gmap string value) :=
  match uis with
  | [] => []
  | ui :: uis' =>
      match request lib ui w with
      | (Ret (Some result), w') => result :: request_log lib uis' w'
      | (_, w') => request_log lib uis' w'
      end
  end.
End Main.

(** What the second column shows for a stored result (lines 171-190). *)
Inductive view : Type :=
| ShowAnalysis (v : value)
| ShowError (v : value).

Definition render (result : gmap string value) : outcome view :=
  ok ← getitem result "success";
  if truth_value ok
  then a ← getitem result "analysis"; Ret (ShowAnalysis a)
  else e ← getitem result "error"; Ret (ShowError e).

(** The result type as the specification words it. *)
Inductive AnalysisResult : Type :=
| Success (text : string)
| Failure (message : string).

(** The dictionaries that stand for a member of [AnalysisResult]: the flag,
    the field of that case and nothing else. *)
Definition as_result (d : gmap string value) : option AnalysisResult :=
  match d !! "success", d !! "analysis", d !! "error" with
  | Some (VBool true), Some (VStr t), None =>
      if decide (dom d = {[ "success"; "analysis" ]}) then Some (Success t) else None
  | Some (VBool false), None, Some (VStr m) =>
      if decide (dom d = {[ "success"; "error" ]}) then Some (Failure m) else None
  | _, _, _ => None
  end.

(** The second column of [main] (lines 164-215): the stored result shown,
    or [None] for the hint and the example drawn while there is none. *)
Definition second_column (session_state : gmap string (gmap string value))
  : outcome (option view) :=
  match session_state !! "result" with
  | Some result => shown ← render result; Ret (Some shown)
  | None => Ret None
  end.

(** ** A sample installation

    Libraries that keep the configured key in their private state, a service
    that refuses a call made without a key, and a world with one image. *)
Module Sample.
Definition no_key_error : PyException :=
  mkExc "DefaultCredentialsError" "No API_KEY or ADC found.".

Definition answer : Response := {| text := Ret "- Items Detected:" |}.

Definition model : GenerativeModel (option string) :=
  {| generate_content := fun _ w =>
       match ext w with
       | Some _ => (Ret answer, w)
       | None => (Raise (Exc no_key_error), w)
       end |}.

Definition lib : Libraries (option string) :=
  {| load_dotenv := mret true;
     genai_configure := fun key w => (Ret tt, World (environ w) (images w) key);
     genai_GenerativeModel := fun _ => mret model;
     Image_open := fun f w =>
       let l := fresh (dom (images w)) in
       (Ret l, World (environ w) (<[l := f]> (images w)) (ext w)) |}.

Definition photo : image := [Byte.x89; Byte.x50; Byte.x4e; Byte.x47].

(** No key in the environment, none configured. *)
Definition w_no_key : world (option string) := World ∅ {[ 0 := photo ]} None.

(** A key has been configured. *)
Definition w_key : world (option string) :=
  World {[ "GOOGLE_API_KEY" := "k" ]} {[ 0 := photo ]} (Some "k").

(** A transport that keeps a scratch buffer of its own on the heap. *)
Definition buffering_model : GenerativeModel (option string) :=
  {| generate_content := fun _ w =>
       (Ret answer, World (environ w) (<[1 := []]> (images w)) (ext w)) |}.

Definition w_buffered : world (option string) :=
  World {[ "GOOGLE_API_KEY" := "k" ]} (<[1 := []]> {[ 0 := photo ]}) (Some "k").

(** Notes whose formatting raises. *)
Definition bad_notes : notes_arg :=
  NotesObj (Ret true) (Raise (Exc (mkExc "TypeError" "unsupported format string"))).

(** An installation whose [.env] file provides the key: [load_dotenv] sets
    it unless the environment has one already. *)
Definition lib_env_file : Libraries (option string) :=
  {| load_dotenv := fun w =>
       (Ret true,
        World (match environ w !! "GOOGLE_API_KEY" with
               | Some _ => environ w
               | None => <["GOOGLE_API_KEY" := "file-key"]> (environ w)
               end) (images w) (ext w));
     genai_configure := genai_configure lib;
     genai_GenerativeModel := genai_GenerativeModel lib;
     Image_open := Image_open lib |}.

(** An installation whose [.env] file cannot be read. *)
Definition lib_unreadable : Libraries (option string) :=
  {| load_dotenv := fun w =>
       (Raise (Exc (mkExc "PermissionError" "[Errno 13] Permission denied")), w);
     genai_configure := genai_configure lib;
     genai_GenerativeModel := genai_GenerativeModel lib;
     Image_open := Image_open lib |}.

(** [Image.open] refusing an upload of no bytes. *)
Definition lib_strict_image : Libraries (option string) :=
  {| load_dotenv := load_dotenv lib;
     genai_configure := genai_configure lib;
     genai_GenerativeModel := genai_GenerativeModel lib;
     Image_open := fun f w =>
       match f with
       | [] => (Raise (Exc (mkExc "UnidentifiedImageError" "cannot identify image file")), w)
       | _ :: _ => Image_open lib f w
       end |}.

(** An exception whose [__str__] returns an [int]: [str(e)] raises. *)
Definition unprintable : PyException :=
  PyExc "QuotaError"
    (StrRaise (Exc (mkExc "TypeError" "__str__ returned non-string (type int)"))).

(** A transport that raises it. *)
Definition model_unprintable : GenerativeModel (option string) :=
  {| generate_content := fun _ w => (Raise (Exc unprintable), w) |}.

(** Notes whose formatting exits the interpreter. *)
Definition exiting_notes : notes_arg :=
  NotesObj (Ret true) (Raise (BaseExc "SystemExit")).

(** Widget values: the button pressed on an upload, a run without pressing
    it, a pressed button on an upload of no bytes, no upload. *)
Definition ui_click : widgets :=
  {| ui_goal := WeightLoss; ui_uploaded_file := Some photo;
     ui_user_notes := "leftover pizza"; ui_analyze := true |}.

Definition ui_idle : widgets :=
  {| ui_goal := General; ui_uploaded_file := Some photo;
     ui_user_notes := ""; ui_analyze := false |}.

Definition ui_bad_upload : widgets :=
  {| ui_goal := General; ui_uploaded_file := Some [];
     ui_user_notes := ""; ui_analyze := true |}.

End Sample.

(** * Properties *)

(** ** Strings *)

Lemma starts_with_spec s t :
  starts_with s t = true <-> exists post, t = s +:+ post.
Proof.
  revert t. induction s as [|a s IH]; intros t; simpl.
  - split; [intros _; by exists t | done].
  - destruct t as [|b t].
    + split; [done | intros [post H]; discriminate H].
    + destruct (Ascii.eqb_spec a b) as [->|Hne].
      * rewrite IH. split; intros [post H]; exists post.
        -- by rewrite H.
        -- by injection H.
      * split; [done | intros [post H]; injection H; congruence].
Qed.

Lemma containsb_spec s t : containsb s t = true <-> contains s t.
Proof.
  induction t as [|b t IH]; simpl.
  - rewrite orb_false_r, starts_with_spec. split.
    + intros [post H]. by exists EmptyString, post.
    + intros [pre [post H]]. destruct pre; [by exists post | discriminate H].
  - rewrite orb_true_iff, starts_with_spec, IH. split.
    + intros [[post H] | [pre [post H]]].
      * by exists EmptyString, post.
      * exists (String b pre), post. simpl. by rewrite H.
    + intros [pre [post H]]. destruct pre as [|c pre].
      * left. by exists post.
      * right. exists pre, post. simpl in H. by injection H.
Qed.

Lemma contains_false s t : containsb s t = false -> ~ contains s t.
Proof. intros H Hc. apply containsb_spec in Hc. congruence. Qed.

Lemma str_truthy_true (s : string) : s <> "" -> str_truthy s = true.
Proof. by destruct s. Qed.

Lemma append_empty_r (s : string) : s +:+ "" = s.
Proof. induction s as [|a s IH]; [done|]. change (String a (s +:+ "") = String a s). by rewrite IH. Qed.

Lemma append_assoc (a b c : string) : (a +:+ b) +:+ c = a +:+ b +:+ c.
Proof.
  induction a as [|x a IH]; [done|].
  change (String x ((a +:+ b) +:+ c) = String x (a +:+ b +:+ c)). by rewrite IH.
Qed.

(** The last of four pieces occurs in their concatenation. *)
Lemma contains_last (a b c s : string) : contains s (a +:+ b +:+ c +:+ s).
Proof.
  exists (a +:+ b +:+ c), "".
  rewrite append_empty_r, !append_assoc. reflexivity.
Qed.


Lemma ret_pair_inv {A S} (a b : A) (s s' : S) :
  (Ret a, s) = (Ret b, s') -> a = b /\ s = s'.
Proof. by intros [= -> ->]. Qed.

Lemma raise_pair_inv {A S} (r r' : raised) (s s' : S) :
  (@Raise A r, s) = (Raise r', s') -> r = r' /\ s = s'.
Proof. by intros [= -> ->]. Qed.

Section Analyze.
Context {X : Type}.
Implicit Types (model : GenerativeModel X) (image : loc) (user_notes : notes_arg).
Implicit Types (w : world X) (e : PyException).

(** [analyze_food_image], one case per way through the [try]. *)
Lemma analyze_food_image_cases model image user_notes w :
  analyze_food_image model image user_notes w =
  match full_prompt user_notes with
  | Ret prompt =>
      match generate_content model [PText prompt; PImage image] w with
      | (Ret response, w') =>
          match text response with
          | Ret t => (Ret (success_dict t), w')
          | Raise (Exc e) => analyze_handler e w'
          | Raise (BaseExc b) => (Raise (BaseExc b), w')
          end
      | (Raise (Exc e), w') => analyze_handler e w'
      | (Raise (BaseExc b), w') => (Raise (BaseExc b), w')
      end
  | Raise (Exc e) => analyze_handler e w
  | Raise (BaseExc b) => (Raise (BaseExc b), w)
  end.
Proof.
  unfold analyze_food_image, try_except_Exception, analyze_body, lift.
  unfold mbind, M_bind, mret, M_ret.
  destruct (full_prompt user_notes) as [prompt|[e|b]]; try reflexivity.
  destruct (generate_content model _ w) as [[response|[e|b]] w']; try reflexivity.
  destruct (text response) as [t|[e|b]]; reflexivity.
Qed.

(** The handler, by what [str(e)] does. *)
Lemma analyze_handler_cases e w :
  analyze_handler e w =
  match str e with
  | Ret msg => (Ret (failure_dict msg), w)
  | Raise r => (Raise r, w)
  end.
Proof. unfold analyze_handler, lift, mbind, M_bind. by destruct (str e). Qed.

Lemma analyze_handler_ret e w (msg : string) :
  str e = Ret msg -> analyze_handler e w = (Ret (failure_dict msg), w).
Proof. intros H. by rewrite analyze_handler_cases, H. Qed.

Lemma analyze_handler_inv_ret e w w' (d : gmap string value) :
  analyze_handler e w = (Ret d, w') ->
  exists msg, str e = Ret msg /\ d = failure_dict msg /\ w' = w.
Proof.
  rewrite analyze_handler_cases. destruct (str e) as [msg|r]; [|discriminate].
  intros H. apply ret_pair_inv in H as [<- <-]. by exists msg.
Qed.

Lemma analyze_handler_inv_raise e w w' (r : raised) :
  @analyze_handler X e w = (Raise r, w') -> str e = Raise r /\ w' = w.
Proof.
  rewrite analyze_handler_cases. destruct (str e) as [msg|r0]; [discriminate|].
  intros H. by apply raise_pair_inv in H as [<- <-].
Qed.

(** The handler leaves the world as it is. *)
Lemma analyze_handler_world e w : snd (analyze_handler e w) = w.
Proof. rewrite analyze_handler_cases. by destruct (str e). Qed.

(** The world [analyze_food_image] leaves. *)
Lemma analyze_food_image_world model image user_notes w :
  snd (analyze_food_image model image user_notes w) =
  match full_prompt user_notes with
  | Ret prompt => snd (generate_content model [PText prompt; PImage image] w)
  | Raise _ => w
  end.
Proof.
  rewrite analyze_food_image_cases.
  destruct (full_prompt user_notes) as [prompt|[e|b]];
    [|apply analyze_handler_world|done].
  destruct (generate_content model _ w) as [[response|[e|b]] w'];
    [|apply analyze_handler_world|done].
  destruct (text response) as [t|[e|b]]; [done|apply analyze_handler_world|done].
Qed.

(** A raise of [user_message] is a raise of [full_prompt]. *)
Lemma full_prompt_raise user_notes r :
  user_message user_notes = Raise r -> full_prompt user_notes = Raise r.
Proof. unfold full_prompt. by intros ->. Qed.

Lemma full_prompt_None :
  full_prompt NotesNone =
  Ret (SYSTEM_PROMPT +:+ nl +:+ nl +:+ "No additional notes provided.").
Proof. reflexivity. Qed.

Lemma full_prompt_str (s : string) :
  full_prompt (NotesStr s) =
  Ret (SYSTEM_PROMPT +:+ nl +:+ nl +:+
       (if str_truthy s then "User notes: " +:+ s else "No additional notes provided.")).
Proof. unfold full_prompt, user_message. simpl. by destruct (str_truthy s). Qed.
End Analyze.

(** ** The transport call decides the result *)

(** C1, as amended. Whatever the image and the notes, when the transport
    call [model.generate_content] raises an error [e] (an instance of
    [Exception], the class the handler names) and [str(e)] returns a string,
    [analyze_food_image] does not raise: it returns the failure dictionary
    whose message is that string, the [Failure] case of the result type.
    When [str(e)] itself raises, what it raises leaves the function. *)
Theorem analyze_transport_error {X} (model : GenerativeModel X) (image : loc)
    (user_notes : notes_arg) (prompt : string) (w w' : world X) (e : PyException) :
  full_prompt user_notes = Ret prompt ->
  generate_content model [PText prompt; PImage image] w = (Raise (Exc e), w') ->
  analyze_food_image model image user_notes w =
    match str e with
    | Ret msg => (Ret (failure_dict msg), w')
    | Raise r => (Raise r, w')
    end
  /\ forall msg, failure_dict msg !! "error" = Some (VStr msg)
                 /\ as_result (failure_dict msg) = Some (Failure msg).
Proof.
  intros Hp Hg. split.
  - by rewrite analyze_food_image_cases, Hp, Hg, analyze_handler_cases.
  - intros msg. split; reflexivity.
Qed.

(** C1 as first stated fails: a transport error whose [__str__] returns no
    string makes [str(e)] raise in the handler, and [analyze_food_image]
    raises that [TypeError] to the caller. *)
Lemma analyze_transport_error_counterexample :
  generate_content Sample.model_unprintable
    [PText (SYSTEM_PROMPT +:+ nl +:+ nl +:+ "No additional notes provided."); PImage 0]
    Sample.w_key
  = (Raise (Exc Sample.unprintable), Sample.w_key)
  /\ analyze_food_image Sample.model_unprintable 0 NotesNone Sample.w_key
     = (Raise (Exc (mkExc "TypeError" "__str__ returned non-string (type int)")),
        Sample.w_key)
  /\ ~ (exists d, fst (analyze_food_image Sample.model_unprintable 0 NotesNone Sample.w_key)
                  = Ret d).
Proof.
  split; [reflexivity|]. split; [reflexivity|].
  intros [d Hd]. discriminate Hd.
Qed.

Lemma analyze_transport_error_witness :
  analyze_food_image Sample.model 0 (NotesStr "leftover pizza") Sample.w_no_key
  = (Ret (failure_dict "No API_KEY or ADC found."), Sample.w_no_key)
  /\ forall msg, failure_dict msg !! "error" = Some (VStr msg)
                 /\ as_result (failure_dict msg) = Some (Failure msg).
Proof.
  apply (analyze_transport_error Sample.model 0 (NotesStr "leftover pizza")
           (SYSTEM_PROMPT +:+ nl +:+ nl +:+ "User notes: leftover pizza")
           Sample.w_no_key Sample.w_no_key Sample.no_key_error).
  - reflexivity.
  - reflexivity.
Defined.

(** C2. Whatever the image and the notes, when the transport call returns a
    response whose text is [T], [analyze_food_image] returns the success
    dictionary carrying exactly [T]: the text is stored as it is. *)
Theorem analyze_transport_text {X} (model : GenerativeModel X) (image : loc)
    (user_notes : notes_arg) (prompt : string) (w w' : world X)
    (response : Response) (T : string) :
  full_prompt user_notes = Ret prompt ->
  generate_content model [PText prompt; PImage image] w = (Ret response, w') ->
  text response = Ret T ->
  analyze_food_image model image user_notes w = (Ret (success_dict T), w')
  /\ success_dict T !! "analysis" = Some (VStr T)
  /\ as_result (success_dict T) = Some (Success T).
Proof.
  intros Hp Hg Ht. split; [|split].
  - by rewrite analyze_food_image_cases, Hp, Hg, Ht.
  - reflexivity.
  - reflexivity.
Qed.

Lemma analyze_transport_text_witness :
  analyze_food_image Sample.model 0 NotesNone Sample.w_key
  = (Ret (success_dict "- Items Detected:"), Sample.w_key)
  /\ success_dict "- Items Detected:" !! "analysis" = Some (VStr "- Items Detected:")
  /\ as_result (success_dict "- Items Detected:") = Some (Success "- Items Detected:").
Proof.
  apply (analyze_transport_text Sample.model 0 NotesNone
           (SYSTEM_PROMPT +:+ nl +:+ nl +:+ "No additional notes provided.")
           Sample.w_key Sample.w_key Sample.answer "- Items Detected:").
  - reflexivity.
  - reflexivity.
  - reflexivity.
Defined.

(** ** The instruction text *)

(** The analysis run by [main] receives the notes with the goal added. *)
Lemma request_analyzes {X} (lib : Libraries X) (ui : widgets) (f : list Byte.byte)
    (model : GenerativeModel X) (image : loc) (w w1 w2 : world X) :
  initialize_gemini lib w = (Ret model, w1) ->
  ui_uploaded_file ui = Some f ->
  Image_open lib f w1 = (Ret image, w2) ->
  ui_analyze ui = true ->
  request lib ui w =
  match analyze_food_image model image
          (NotesStr (add_goal (goal_label (ui_goal ui)) (ui_user_notes ui))) w2 with
  | (Ret result, w3) => (Ret (Some result), w3)
  | (Raise r, w3) => (Raise r, w3)
  end.
Proof.
  intros Hi Hf Ho Hb. unfold request, mbind, M_bind.
  rewrite Hi, Hf, Ho, Hb.
  by destruct (analyze_food_image _ _ _ w2) as [[result|r] w3].
Qed.

(** C3. For a goal other than the general one, the notes handed to the
    analysis are the original notes followed by [" | Goal: "] and the goal's
    label, or just ["Goal: "] and the label when the original notes are
    empty; with notes "leftover pizza" and the weight-loss goal the
    instruction contains "User notes: leftover pizza | Goal: Weight Loss". *)
Theorem add_goal_effective_notes (g : health_goal) (user_notes : string) :
  g <> General ->
  (user_notes <> "" ->
   add_goal (goal_label g) user_notes = user_notes +:+ " | Goal: " +:+ goal_label g)
  /\ (user_notes = "" -> add_goal (goal_label g) user_notes = "Goal: " +:+ goal_label g)
  /\ exists prompt,
       full_prompt (NotesStr (add_goal (goal_label WeightLoss) "leftover pizza")) = Ret prompt
       /\ contains "User notes: leftover pizza | Goal: Weight Loss" prompt.
Proof.
  intros Hg. split; [|split].
  - intros Hn. unfold add_goal. rewrite (str_truthy_true _ Hn).
    by destruct g.
  - intros ->. by destruct g.
  - exists (SYSTEM_PROMPT +:+ nl +:+ nl +:+ "User notes: leftover pizza | Goal: Weight Loss").
    split; [reflexivity|]. apply contains_last.
Qed.

Lemma add_goal_effective_notes_witness :
  ("leftover pizza" <> "" ->
   add_goal (goal_label WeightLoss) "leftover pizza"
   = "leftover pizza" +:+ " | Goal: " +:+ goal_label WeightLoss)
  /\ ("leftover pizza" = "" ->
      add_goal (goal_label WeightLoss) "leftover pizza" = "Goal: " +:+ goal_label WeightLoss)
  /\ exists prompt,
       full_prompt (NotesStr (add_goal (goal_label WeightLoss) "leftover pizza")) = Ret prompt
       /\ contains "User notes: leftover pizza | Goal: Weight Loss" prompt.
Proof.
  apply (add_goal_effective_notes WeightLoss "leftover pizza"). discriminate.
Defined.

(** C4. With absent notes the instruction sent to the transport is the
    template, a blank line and "No additional notes provided."; it contains
    that sentence and no goal suffix.  Empty notes with the general goal give
    the same instruction. *)
Theorem absent_notes_prompt {X} (model : GenerativeModel X) (image : loc) (w : world X) :
  let prompt := SYSTEM_PROMPT +:+ nl +:+ nl +:+ "No additional notes provided." in
  full_prompt NotesNone = Ret prompt
  /\ full_prompt (NotesStr (add_goal (goal_label General) "")) = Ret prompt
  /\ contains "No additional notes provided." prompt
  /\ ~ contains "Goal: " prompt
  /\ analyze_food_image model image NotesNone w =
     try_except_Exception
       (response ← generate_content model [PText prompt; PImage image];
        t ← lift (text response);
        mret (success_dict t))
       analyze_handler w.
Proof.
  intros prompt. split; [reflexivity|]. split; [reflexivity|].
  split; [apply contains_last|]. split; [|reflexivity].
  apply contains_false. vm_compute. reflexivity.
Qed.

(** C5. For non-empty notes [n] the instruction is the template, a blank
    line and the line "User notes: " followed by [n] as it is; so it contains
    "User notes: " followed by [n]. *)
Theorem nonempty_notes_prompt (n : string) :
  n <> "" ->
  full_prompt (NotesStr n) = Ret (SYSTEM_PROMPT +:+ nl +:+ nl +:+ "User notes: " +:+ n)
  /\ contains ("User notes: " +:+ n) (SYSTEM_PROMPT +:+ nl +:+ nl +:+ "User notes: " +:+ n).
Proof.
  intros Hn. split.
  - rewrite full_prompt_str, (str_truthy_true _ Hn). reflexivity.
  - apply contains_last.
Qed.

Lemma nonempty_notes_prompt_witness :
  full_prompt (NotesStr "homemade pasta")
  = Ret (SYSTEM_PROMPT +:+ nl +:+ nl +:+ "User notes: " +:+ "homemade pasta")
  /\ contains ("User notes: " +:+ "homemade pasta")
       (SYSTEM_PROMPT +:+ nl +:+ nl +:+ "User notes: " +:+ "homemade pasta").
Proof.
  apply (nonempty_notes_prompt "homemade pasta"). discriminate.
Defined.

(** ** The result type *)

Lemma success_not_failure (t m : string) : success_dict t <> failure_dict m.
Proof. intros H. apply (f_equal (fun d => d !! "success")) in H. discriminate H. Qed.

(** C6. A value returned by [analyze_food_image] is one member of the result
    type: the success dictionary with its text or the failure dictionary with
    its message, decoded and shown accordingly, and not both. *)
Theorem analyze_returns_result {X} (model : GenerativeModel X) (image : loc)
    (user_notes : notes_arg) (w w' : world X) (d : gmap string value) :
  analyze_food_image model image user_notes w = (Ret d, w') ->
  ((exists t, d = success_dict t /\ as_result d = Some (Success t)
              /\ render d = Ret (ShowAnalysis (VStr t)))
   \/ (exists m, d = failure_dict m /\ as_result d = Some (Failure m)
                 /\ render d = Ret (ShowError (VStr m))))
  /\ ~ ((exists t, d = success_dict t) /\ (exists m, d = failure_dict m)).
Proof.
  intros H. split.
  - rewrite analyze_food_image_cases in H.
    destruct (full_prompt user_notes) as [prompt|[e|b]].
    + destruct (generate_content model _ w) as [[response|[e|b]] w1].
      * destruct (text response) as [t|[e|b]]; [| |discriminate H].
        -- apply ret_pair_inv in H as [<- _]. left. by exists t.
        -- apply analyze_handler_inv_ret in H as (m & _ & -> & _). right. by exists m.
      * apply analyze_handler_inv_ret in H as (m & _ & -> & _). right. by exists m.
      * discriminate H.
    + apply analyze_handler_inv_ret in H as (m & _ & -> & _). right. by exists m.
    + discriminate H.
  - intros [[t Ht] [m Hm]]. subst d. by apply success_not_failure in Hm.
Qed.

Lemma analyze_returns_result_witness :
  ((exists t, success_dict "- Items Detected:" = success_dict t
              /\ as_result (success_dict "- Items Detected:") = Some (Success t)
              /\ render (success_dict "- Items Detected:") = Ret (ShowAnalysis (VStr t)))
   \/ (exists m, success_dict "- Items Detected:" = failure_dict m
                 /\ as_result (success_dict "- Items Detected:") = Some (Failure m)
                 /\ render (success_dict "- Items Detected:") = Ret (ShowError (VStr m))))
  /\ ~ ((exists t, success_dict "- Items Detected:" = success_dict t)
        /\ (exists m, success_dict "- Items Detected:" = failure_dict m)).
Proof.
  apply (analyze_returns_result Sample.model 0 NotesNone Sample.w_key Sample.w_key).
  reflexivity.
Defined.

(** ** The API key *)

(** C7. The key is not checked in advance.  When the environment has no
    [GOOGLE_API_KEY] once [load_dotenv] has run, [initialize_gemini] passes
    [None] to [genai.configure] and returns the model the library builds:
    it raises nothing of its own.  The missing key shows only when the
    transport call made with that model raises its error, which
    [analyze_food_image] returns as a failure carrying the string [str(e)]
    returns. *)
Theorem missing_key_surfaces_at_call {X} (lib : Libraries X) (w w1 w2 w3 : world X)
    (loaded : bool) (model : GenerativeModel X) :
  load_dotenv lib w = (Ret loaded, w1) ->
  environ w1 !! "GOOGLE_API_KEY" = None ->
  genai_configure lib None w1 = (Ret tt, w2) ->
  genai_GenerativeModel lib "gemini-2.5-pro" w2 = (Ret model, w3) ->
  initialize_gemini lib w = (Ret model, w3)
  /\ forall (image : loc) (user_notes : notes_arg) (prompt : string)
       (w4 w5 : world X) (e : PyException) (msg : string),
       full_prompt user_notes = Ret prompt ->
       generate_content model [PText prompt; PImage image] w4 = (Raise (Exc e), w5) ->
       str e = Ret msg ->
       analyze_food_image model image user_notes w4 = (Ret (failure_dict msg), w5).
Proof.
  intros Hl Hk Hc Hm. split.
  - unfold initialize_gemini, mbind, M_bind, os_getenv.
    by rewrite Hl, Hk, Hc, Hm.
  - intros image user_notes prompt w4 w5 e msg Hp Hg Hs.
    by rewrite analyze_food_image_cases, Hp, Hg, (analyze_handler_ret _ _ _ Hs).
Qed.

Lemma missing_key_surfaces_at_call_witness :
  initialize_gemini Sample.lib Sample.w_no_key = (Ret Sample.model, Sample.w_no_key)
  /\ forall (image : loc) (user_notes : notes_arg) (prompt : string)
       (w4 w5 : world (option string)) (e : PyException) (msg : string),
       full_prompt user_notes = Ret prompt ->
       generate_content Sample.model [PText prompt; PImage image] w4 = (Raise (Exc e), w5) ->
       str e = Ret msg ->
       analyze_food_image Sample.model image user_notes w4
       = (Ret (failure_dict msg), w5).
Proof.
  apply (missing_key_surfaces_at_call Sample.lib Sample.w_no_key Sample.w_no_key
           Sample.w_no_key Sample.w_no_key true Sample.model).
  - reflexivity.
  - reflexivity.
  - reflexivity.
  - reflexivity.
Defined.

(** ** The image *)

(** C9. [analyze_food_image] writes to no image itself: given a transport
    call that leaves the bytes of the image it is handed as they are, the
    image is the same after the call as before it, whatever the call returns
    or raises. *)
Theorem analyze_keeps_image {X} (model : GenerativeModel X) (image : loc)
    (user_notes : notes_arg) (w w' : world X) (r : outcome (gmap string value)) :
  (forall prompt, images (snd (generate_content model [PText prompt; PImage image] w)) !! image
                  = images w !! image) ->
  analyze_food_image model image user_notes w = (r, w') ->
  images w' !! image = images w !! image.
Proof.
  intros Hro H. apply (f_equal snd) in H. simpl in H. subst w'.
  rewrite analyze_food_image_world.
  destruct (full_prompt user_notes) as [prompt|r0]; [apply Hro|reflexivity].
Qed.

Lemma analyze_keeps_image_witness :
  images Sample.w_buffered !! 0 = images Sample.w_key !! 0.
Proof.
  apply (analyze_keeps_image Sample.buffering_model 0 (NotesStr "homemade pasta")
           Sample.w_key Sample.w_buffered (Ret (success_dict "- Items Detected:"))).
  - intros prompt. reflexivity.
  - reflexivity.
Defined.

(** ** Errors anywhere in the body *)

(** An exit that is not an error is not caught: it passes to the caller. *)
Lemma analyze_passes_base_exceptions {X} (model : GenerativeModel X) (image : loc)
    (user_notes : notes_arg) (prompt : string) (w w' : world X) (b : string) :
  full_prompt user_notes = Ret prompt ->
  generate_content model [PText prompt; PImage image] w = (Raise (BaseExc b), w') ->
  analyze_food_image model image user_notes w = (Raise (BaseExc b), w').
Proof. intros Hp Hg. by rewrite analyze_food_image_cases, Hp, Hg. Qed.

(** C10, as amended. The [try] encloses the whole body: whatever is raised
    while the notes are tested or formatted into the prompt, by the
    transport call, or while the text of the response is read, is raised by
    the body of the [try].  When it is an instance [e] of [Exception] it is
    caught: the function returns the failure dictionary with [str(e)] when
    [str(e)] returns a string, and what [str(e)] raises otherwise leaves the
    function.  An exit outside [Exception] is not caught and leaves the
    function. *)
Theorem analyze_catches_body_errors {X} (model : GenerativeModel X) (image : loc)
    (user_notes : notes_arg) (w w' : world X) (r : raised) :
  (user_message user_notes = Raise r /\ w' = w)
  \/ (exists prompt,
        full_prompt user_notes = Ret prompt
        /\ generate_content model [PText prompt; PImage image] w = (Raise r, w'))
  \/ (exists prompt response,
        full_prompt user_notes = Ret prompt
        /\ generate_content model [PText prompt; PImage image] w = (Ret response, w')
        /\ text response = Raise r) ->
  analyze_body model image user_notes w = (Raise r, w')
  /\ analyze_food_image model image user_notes w =
     match r with
     | Exc e =>
         match str e with
         | Ret msg => (Ret (failure_dict msg), w')
         | Raise r' => (Raise r', w')
         end
     | BaseExc b => (Raise (BaseExc b), w')
     end.
Proof.
  intros H. rewrite analyze_food_image_cases.
  unfold analyze_body, lift, mbind, M_bind.
  destruct H as [[Hu ->] | [(prompt & Hp & Hg) | (prompt & response & Hp & Hg & Ht)]].
  - rewrite (full_prompt_raise _ _ Hu). split; [done|].
    destruct r as [e|b]; [apply analyze_handler_cases|done].
  - rewrite Hp, Hg. split; [done|].
    destruct r as [e|b]; [apply analyze_handler_cases|done].
  - rewrite Hp, Hg, Ht. split; [done|].
    destruct r as [e|b]; [apply analyze_handler_cases|done].
Qed.

(** C10 as first stated fails: notes whose formatting raises [SystemExit]
    raise it inside the [try], it is not caught, and [analyze_food_image]
    raises it instead of returning a failure. *)
Lemma analyze_catches_body_errors_counterexample :
  user_message Sample.exiting_notes = Raise (BaseExc "SystemExit")
  /\ analyze_body Sample.model 0 Sample.exiting_notes Sample.w_key
     = (Raise (BaseExc "SystemExit"), Sample.w_key)
  /\ analyze_food_image Sample.model 0 Sample.exiting_notes Sample.w_key
     = (Raise (BaseExc "SystemExit"), Sample.w_key)
  /\ ~ (exists m w', analyze_food_image Sample.model 0 Sample.exiting_notes Sample.w_key
                     = (Ret (failure_dict m), w')).
Proof.
  split; [reflexivity|]. split; [reflexivity|]. split; [reflexivity|].
  intros (m & w' & H). discriminate H.
Qed.

Lemma analyze_catches_body_errors_witness :
  analyze_body Sample.model 0 Sample.bad_notes Sample.w_key
  = (Raise (Exc (mkExc "TypeError" "unsupported format string")), Sample.w_key)
  /\ analyze_food_image Sample.model 0 Sample.bad_notes Sample.w_key
     = (Ret (failure_dict "unsupported format string"), Sample.w_key).
Proof.
  apply (analyze_catches_body_errors Sample.model 0 Sample.bad_notes
           Sample.w_key Sample.w_key (Exc (mkExc "TypeError" "unsupported format string"))).
  left. split; reflexivity.
Defined.

(** ** The stored result *)

Section Session.
Context {X : Type}.
Implicit Types (lib : Libraries X) (ui : widgets) (w : world X).
Implicit Types (s : gmap string (gmap string value)).

(** The state one run of [main] leaves. *)
Lemma main_state lib ui s w :
  snd (main lib ui (s, w)) =
  match request lib ui w with
  | (Ret (Some result), w') => (<["result" := result]> s, w')
  | (_, w') => (s, w')
  end.
Proof.
  unfold main. by destruct (request lib ui w) as [[[result|]|r] w'].
Qed.

Lemma last_cons_or {A} (x : A) (l : list A) :
  last (x :: l) = match last l with Some y => Some y | None => Some x end.
Proof.
  destruct l as [|y l]; [done|]. rewrite last_cons_cons.
  destruct (last (y :: l)) eqn:E; [done|]. by apply last_None in E.
Qed.

Lemma reruns_cons lib ui uis (st : gmap string (gmap string value) * world X) :
  reruns lib (ui :: uis) st = reruns lib uis (snd (main lib ui st)).
Proof. reflexivity. Qed.

(** After any runs the session is the initial one with the latest result,
    if there is one, stored under ['result']. *)
Lemma reruns_session lib uis : forall s w,
  fst (reruns lib uis (s, w)) =
  match last (request_log lib uis w) with
  | Some result => <["result" := result]> s
  | None => s
  end.
Proof.
  induction uis as [|ui uis IH]; intros s w; [done|].
  rewrite reruns_cons, main_state. simpl request_log.
  destruct (request lib ui w) as [[[result|]|r] w']; rewrite IH; try done.
  rewrite last_cons_or.
  destruct (last (request_log lib uis w')); [|done].
  by rewrite insert_insert_eq.
Qed.
End Session.

(** C8. One result at most is current.  Every run of [main] that analyses
    stores its result under the one key ['result'], over whatever was there;
    so after any sequence of runs the session holds the result of the most
    recent request that returned one, or what it held at first (nothing, for
    a new session) when there was none; and the second column shows what
    the session holds. *)
Theorem session_holds_latest_result {X} (lib : Libraries X) (uis : list widgets)
    (s : gmap string (gmap string value)) (w : world X) :
  fst (reruns lib uis (s, w)) =
    match last (request_log lib uis w) with
    | Some result => <["result" := result]> s
    | None => s
    end
  /\ fst (reruns lib uis (∅, w)) !! "result" = last (request_log lib uis w)
  /\ dom (fst (reruns lib uis (∅, w))) ⊆ {[ "result" ]}
  /\ forall ui, match main lib ui (s, w) with
                | (Ret shown, (s', _)) => shown = s' !! "result"
                | (Raise _, (s', _)) => s' = s
                end.
Proof.
  split; [apply reruns_session|]. split; [|split].
  - rewrite reruns_session.
    destruct (last (request_log lib uis w)); [|done].
    apply lookup_insert_eq.
  - rewrite reruns_session.
    destruct (last (request_log lib uis w)).
    + rewrite dom_insert_L. set_solver.
    + set_solver.
  - intros ui. unfold main.
    by destruct (request lib ui w) as [[[result|]|r] w'].
Qed.

(** Runs on the sample installation: an analysis without a key gives the
    failure; with the key, an analysis followed by a run without pressing
    the button leaves the result of the analysis in the session. *)
Example sample_session :
  let click := {| ui_goal := WeightLoss; ui_uploaded_file := Some Sample.photo;
                  ui_user_notes := "leftover pizza"; ui_analyze := true |} in
  let idle := {| ui_goal := General; ui_uploaded_file := Some Sample.photo;
                 ui_user_notes := ""; ui_analyze := false |} in
  request_log Sample.lib [click] Sample.w_no_key
    = [failure_dict "No API_KEY or ADC found."]
  /\ request_log Sample.lib [click; idle] Sample.w_key
     = [success_dict "- Items Detected:"]
  /\ fst (reruns Sample.lib [click; idle] (∅, Sample.w_key)) !! "result"
     = Some (success_dict "- Items Detected:").
Proof. intros click idle. split; [|split]; vm_compute; reflexivity. Qed.

(** * Further properties of [analyze_food_image] *)

Lemma success_dict_inj (t t' : string) : success_dict t = success_dict t' -> t = t'.
Proof.
  intros H. apply (f_equal (fun d => d !! "analysis")) in H.
  change (Some (VStr t) = Some (VStr t')) in H. by inversion H.
Qed.

Lemma failure_dict_inj (m m' : string) : failure_dict m = failure_dict m' -> m = m'.
Proof.
  intros H. apply (f_equal (fun d => d !! "error")) in H.
  change (Some (VStr m) = Some (VStr m')) in H. by inversion H.
Qed.

(** The body of the [try], one case per way through it. *)
Lemma analyze_body_cases {X} (model : GenerativeModel X) (image : loc)
    (user_notes : notes_arg) (w : world X) :
  analyze_body model image user_notes w =
  match full_prompt user_notes with
  | Ret prompt =>
      match generate_content model [PText prompt; PImage image] w with
      | (Ret response, w') =>
          match text response with
          | Ret t => (Ret (success_dict t), w')
          | Raise r => (Raise r, w')
          end
      | (Raise r, w') => (Raise r, w')
      end
  | Raise r => (Raise r, w)
  end.
Proof.
  unfold analyze_body, lift, mbind, M_bind, mret, M_ret.
  destruct (full_prompt user_notes) as [prompt|r]; [|done].
  destruct (generate_content model _ w) as [[response|r] w']; [|done].
  by destruct (text response).
Qed.

(** [analyze_food_image] raises in two ways only: the body of the [try] is
    left by an exit outside [Exception], which is passed on; or the body
    raised an error [e], which is caught, and [str(e)] raised in the
    handler.  So it raises no error as long as [str] returns on the errors
    it catches. *)
Theorem analyze_raise_inv {X} (model : GenerativeModel X) (image : loc)
    (user_notes : notes_arg) (w w' : world X) (r : raised) :
  analyze_food_image model image user_notes w = (Raise r, w') ->
  (exists b, r = BaseExc b
             /\ analyze_body model image user_notes w = (Raise (BaseExc b), w'))
  \/ (exists e, analyze_body model image user_notes w = (Raise (Exc e), w')
                /\ str e = Raise r).
Proof.
  rewrite analyze_food_image_cases, analyze_body_cases. intros H.
  destruct (full_prompt user_notes) as [prompt|[e|b]].
  - destruct (generate_content model _ w) as [[response|[e|b]] w1].
    + destruct (text response) as [t|[e|b]]; [discriminate H| |].
      * apply analyze_handler_inv_raise in H as [Hs ->]. right. by exists e.
      * apply raise_pair_inv in H as [<- <-]. left. by exists b.
    + apply analyze_handler_inv_raise in H as [Hs ->]. right. by exists e.
    + apply raise_pair_inv in H as [<- <-]. left. by exists b.
  - apply analyze_handler_inv_raise in H as [Hs ->]. right. by exists e.
  - apply raise_pair_inv in H as [<- <-]. left. by exists b.
Qed.

Lemma analyze_raise_inv_witness :
  (exists b, Exc (mkExc "TypeError" "__str__ returned non-string (type int)") = BaseExc b
             /\ analyze_body Sample.model_unprintable 0 NotesNone Sample.w_key
                = (Raise (BaseExc b), Sample.w_key))
  \/ (exists e, analyze_body Sample.model_unprintable 0 NotesNone Sample.w_key
                = (Raise (Exc e), Sample.w_key)
                /\ str e = Raise (Exc (mkExc "TypeError"
                                         "__str__ returned non-string (type int)"))).
Proof.
  apply (analyze_raise_inv Sample.model_unprintable 0 NotesNone Sample.w_key Sample.w_key).
  reflexivity.
Defined.

(** One transport call at most, and no other effect: the world
    [analyze_food_image] leaves is the one its single call to
    [generate_content] leaves, also when that call or the reading of the
    text raises (nothing is retried); when the prompt cannot be built no
    call is made and the world is as before. *)
Theorem analyze_single_transport_call {X} (model : GenerativeModel X) (image : loc)
    (user_notes : notes_arg) (w : world X) :
  snd (analyze_food_image model image user_notes w) =
  match full_prompt user_notes with
  | Ret prompt => snd (generate_content model [PText prompt; PImage image] w)
  | Raise _ => w
  end.
Proof.
  rewrite analyze_food_image_cases.
  destruct (full_prompt user_notes) as [prompt|[e|b]];
    [|rewrite analyze_handler_cases; by destruct (str e)|done].
  destruct (generate_content model _ w) as [[response|[e|b]] w'];
    [|rewrite analyze_handler_cases; by destruct (str e)|done].
  destruct (text response) as [t|[e|b]];
    [done|rewrite analyze_handler_cases; by destruct (str e)|done].
Qed.

(** A success is never made up: when [analyze_food_image] returns the
    success dictionary with text [t], the transport call returned a response
    and [t] is the text read from it. *)
Theorem analyze_success_inv {X} (model : GenerativeModel X) (image : loc)
    (user_notes : notes_arg) (w w' : world X) (t : string) :
  analyze_food_image model image user_notes w = (Ret (success_dict t), w') ->
  exists prompt response,
    full_prompt user_notes = Ret prompt
    /\ generate_content model [PText prompt; PImage image] w = (Ret response, w')
    /\ text response = Ret t.
Proof.
  rewrite analyze_food_image_cases. intros H.
  destruct (full_prompt user_notes) as [prompt|[e|b]].
  - exists prompt.
    destruct (generate_content model _ w) as [[response|[e|b]] w1].
    + exists response. destruct (text response) as [t1|[e|b]]; [| |discriminate H].
      * apply ret_pair_inv in H as [Hd ->]. by apply success_dict_inj in Hd as ->.
      * apply analyze_handler_inv_ret in H as (m & _ & Hd & _).
        by apply success_not_failure in Hd.
    + apply analyze_handler_inv_ret in H as (m & _ & Hd & _).
      by apply success_not_failure in Hd.
    + discriminate H.
  - apply analyze_handler_inv_ret in H as (m & _ & Hd & _).
    by apply success_not_failure in Hd.
  - discriminate H.
Qed.

Lemma analyze_success_inv_witness :
  exists prompt response,
    full_prompt NotesNone = Ret prompt
    /\ generate_content Sample.model [PText prompt; PImage 0] Sample.w_key
       = (Ret response, Sample.w_key)
    /\ text response = Ret "- Items Detected:".
Proof.
  apply (analyze_success_inv Sample.model 0 NotesNone Sample.w_key Sample.w_key
           "- Items Detected:").
  reflexivity.
Defined.

(** A failure always reports an error of the body: when
    [analyze_food_image] returns the failure dictionary with message [m],
    the body of the [try] raised an instance [e] of [Exception] and [str(e)]
    returned [m]. *)
Theorem analyze_failure_inv {X} (model : GenerativeModel X) (image : loc)
    (user_notes : notes_arg) (w w' : world X) (m : string) :
  analyze_food_image model image user_notes w = (Ret (failure_dict m), w') ->
  exists e, str e = Ret m /\ analyze_body model image user_notes w = (Raise (Exc e), w').
Proof.
  rewrite analyze_food_image_cases, analyze_body_cases. intros H.
  destruct (full_prompt user_notes) as [prompt|[e|b]].
  - destruct (generate_content model _ w) as [[response|[e|b]] w1].
    + destruct (text response) as [t1|[e|b]]; [| |discriminate H].
      * apply ret_pair_inv in H as [Hd _]. by apply success_not_failure in Hd.
      * apply analyze_handler_inv_ret in H as (m' & Hs & Hd & ->).
        apply failure_dict_inj in Hd as ->. by exists e.
    + apply analyze_handler_inv_ret in H as (m' & Hs & Hd & ->).
      apply failure_dict_inj in Hd as ->. by exists e.
    + discriminate H.
  - apply analyze_handler_inv_ret in H as (m' & Hs & Hd & ->).
    apply failure_dict_inj in Hd as ->. by exists e.
  - discriminate H.
Qed.

Lemma analyze_failure_inv_witness :
  exists e, str e = Ret "No API_KEY or ADC found."
            /\ analyze_body Sample.model 0 (NotesStr "leftover pizza") Sample.w_no_key
               = (Raise (Exc e), Sample.w_no_key).
Proof.
  apply (analyze_failure_inv Sample.model 0 (NotesStr "leftover pizza")
           Sample.w_no_key Sample.w_no_key "No API_KEY or ADC found.").
  reflexivity.
Defined.

(** Empty notes count as no notes: [analyze_food_image] does on the empty
    string what it does on [None]. *)
Theorem analyze_empty_notes_as_absent {X} (model : GenerativeModel X) (image : loc)
    (w : world X) :
  analyze_food_image model image (NotesStr "") w
  = analyze_food_image model image NotesNone w.
Proof. reflexivity. Qed.

(** * Further properties of the instruction text *)

Lemma Ret_inj {A} (a b : A) : Ret a = Ret b -> a = b.
Proof. by intros [= ->]. Qed.

Lemma contains_refl (s : string) : contains s s.
Proof. exists "", "". by rewrite append_empty_r. Qed.

Lemma contains_app_pre (s a x : string) : contains s x -> contains s (a +:+ x).
Proof.
  intros (pre & post & ->). exists (a +:+ pre), post. by rewrite append_assoc.
Qed.

Lemma contains_app_post (s x b : string) : contains s x -> contains s (x +:+ b).
Proof.
  intros (pre & post & ->). exists pre, (post +:+ b). by rewrite !append_assoc.
Qed.

Lemma append_eq_self (n s : string) : n +:+ s = n -> s = "".
Proof. intros H. apply (String.app_inj n). by rewrite append_empty_r. Qed.

(** The notes can be read back from the instruction: two note strings that
    give the same instruction are the same string. *)
Theorem full_prompt_notes_inj (a b : string) :
  full_prompt (NotesStr a) = full_prompt (NotesStr b) -> a = b.
Proof.
  rewrite !full_prompt_str. intros H. apply Ret_inj in H.
  apply (String.app_inj SYSTEM_PROMPT) in H.
  apply (String.app_inj nl) in H. apply (String.app_inj nl) in H.
  destruct a as [|x a], b as [|y b]; simpl in H.
  - reflexivity.
  - discriminate H.
  - discriminate H.
  - by apply (String.app_inj "User notes: ") in H.
Qed.

Lemma full_prompt_notes_inj_witness : "homemade pasta" = "homemade pasta".
Proof.
  apply (full_prompt_notes_inj "homemade pasta" "homemade pasta"). reflexivity.
Defined.

(** Whatever the notes, an instruction that gets built begins with the
    template, and so asks for the four sections of the answer. *)
Theorem full_prompt_has_template (user_notes : notes_arg) (prompt : string) :
  full_prompt user_notes = Ret prompt ->
  (exists rest, prompt = SYSTEM_PROMPT +:+ rest)
  /\ contains "- Items Detected:" prompt
  /\ contains "- Assumptions & Uncertainty:" prompt
  /\ contains "- Total Estimated Calories:" prompt
  /\ contains "- Notes & Tips:" prompt.
Proof.
  unfold full_prompt. destruct (user_message user_notes) as [um|r]; [|discriminate].
  intros H. apply Ret_inj in H. subst prompt.
  split; [by eexists|].
  repeat apply conj; apply contains_app_post, containsb_spec; vm_compute; reflexivity.
Qed.

Lemma full_prompt_has_template_witness :
  (exists rest, SYSTEM_PROMPT +:+ nl +:+ nl +:+ "User notes: homemade pasta"
                = SYSTEM_PROMPT +:+ rest)
  /\ contains "- Items Detected:"
       (SYSTEM_PROMPT +:+ nl +:+ nl +:+ "User notes: homemade pasta")
  /\ contains "- Assumptions & Uncertainty:"
       (SYSTEM_PROMPT +:+ nl +:+ nl +:+ "User notes: homemade pasta")
  /\ contains "- Total Estimated Calories:"
       (SYSTEM_PROMPT +:+ nl +:+ nl +:+ "User notes: homemade pasta")
  /\ contains "- Notes & Tips:"
       (SYSTEM_PROMPT +:+ nl +:+ nl +:+ "User notes: homemade pasta").
Proof.
  apply (full_prompt_has_template (NotesStr "homemade pasta")). reflexivity.
Defined.

(** With a goal other than the general one the notes handed over are never
    empty. *)
Lemma add_goal_truthy (g : health_goal) (n : string) :
  g <> General -> str_truthy (add_goal (goal_label g) n) = true.
Proof. intros Hg. by destruct g, n. Qed.

Lemma add_goal_contains_goal (g : health_goal) (n : string) :
  g <> General -> contains ("Goal: " +:+ goal_label g) (add_goal (goal_label g) n).
Proof.
  intros Hg. destruct n as [|c n].
  - destruct g; try done; apply contains_refl.
  - destruct g; try done;
      apply (contains_app_pre _ (String c n)), (contains_app_pre _ " | "), contains_refl.
Qed.

(** A selected goal always reaches the model: for a goal other than the
    general one and any notes, empty or not, the instruction takes the
    user-notes form, not the no-notes sentence, and contains "Goal: "
    followed by the goal's label. *)
Theorem goal_reaches_prompt (g : health_goal) (n : string) :
  g <> General ->
  full_prompt (NotesStr (add_goal (goal_label g) n))
  = Ret (SYSTEM_PROMPT +:+ nl +:+ nl +:+ "User notes: " +:+ add_goal (goal_label g) n)
  /\ contains ("Goal: " +:+ goal_label g)
       (SYSTEM_PROMPT +:+ nl +:+ nl +:+ "User notes: " +:+ add_goal (goal_label g) n).
Proof.
  intros Hg. split.
  - by rewrite full_prompt_str, add_goal_truthy.
  - do 4 apply contains_app_pre. by apply add_goal_contains_goal.
Qed.

Lemma goal_reaches_prompt_witness :
  full_prompt (NotesStr (add_goal (goal_label MuscleGain) ""))
  = Ret (SYSTEM_PROMPT +:+ nl +:+ nl +:+ "User notes: "
         +:+ add_goal (goal_label MuscleGain) "")
  /\ contains ("Goal: " +:+ goal_label MuscleGain)
       (SYSTEM_PROMPT +:+ nl +:+ nl +:+ "User notes: "
        +:+ add_goal (goal_label MuscleGain) "").
Proof.
  apply (goal_reaches_prompt MuscleGain ""). discriminate.
Defined.

(** The goal can be read back from the notes handed over: on the same
    typed notes, two goals that give the same notes are the same goal. *)
Theorem add_goal_goal_inj (g1 g2 : health_goal) (n : string) :
  add_goal (goal_label g1) n = add_goal (goal_label g2) n -> g1 = g2.
Proof.
  destruct n as [|c n].
  - by destruct g1, g2.
  - destruct g1, g2; intros H; try reflexivity;
      change (add_goal (goal_label General) (String c n)) with (String c n) in H;
      try (apply append_eq_self in H; discriminate H);
      try (apply eq_sym, append_eq_self in H; discriminate H);
      apply (String.app_inj (String c n)) in H; discriminate H.
Qed.

Lemma add_goal_goal_inj_witness : WeightLoss = WeightLoss.
Proof.
  apply (add_goal_goal_inj WeightLoss WeightLoss "leftover pizza"). reflexivity.
Defined.

(** * Further properties of [initialize_gemini] and [main] *)

(** The key is read after [load_dotenv] has run: what [genai.configure]
    receives is the value of [GOOGLE_API_KEY] in the environment as
    [load_dotenv] left it, so a key that only the [.env] file provides is
    the one configured. *)
Theorem initialize_gemini_key_after_dotenv {X} (lib : Libraries X) (w w1 : world X)
    (loaded : bool) (key : option string) :
  load_dotenv lib w = (Ret loaded, w1) ->
  environ w1 !! "GOOGLE_API_KEY" = key ->
  initialize_gemini lib w =
  (_ ← genai_configure lib key; genai_GenerativeModel lib "gemini-2.5-pro") w1.
Proof.
  intros Hl Hk. unfold initialize_gemini, os_getenv.
  unfold mbind at 1 2. unfold M_bind at 1 2. by rewrite Hl, Hk.
Qed.

Lemma initialize_gemini_key_after_dotenv_witness :
  initialize_gemini Sample.lib_env_file Sample.w_no_key =
  (_ ← genai_configure Sample.lib_env_file (Some "file-key");
   genai_GenerativeModel Sample.lib_env_file "gemini-2.5-pro")
    (World {[ "GOOGLE_API_KEY" := "file-key" ]} {[ 0 := Sample.photo ]} None).
Proof.
  apply (initialize_gemini_key_after_dotenv Sample.lib_env_file Sample.w_no_key
           (World {[ "GOOGLE_API_KEY" := "file-key" ]} {[ 0 := Sample.photo ]} None)
           true (Some "file-key")).
  - reflexivity.
  - reflexivity.
Defined.

Section Runs.
Context {X : Type}.
Implicit Types (lib : Libraries X) (ui : widgets) (w : world X).
Implicit Types (s : gmap string (gmap string value)).

(** [request], one case per way through it. *)
Lemma request_cases lib ui w :
  request lib ui w =
  match initialize_gemini lib w with
  | (Ret model, w1) =>
      match ui_uploaded_file ui with
      | Some f =>
          match Image_open lib f w1 with
          | (Ret image, w2) =>
              if ui_analyze ui
              then match analyze_food_image model image
                           (NotesStr (add_goal (goal_label (ui_goal ui)) (ui_user_notes ui)))
                           w2 with
                   | (Ret result, w3) => (Ret (Some result), w3)
                   | (Raise r, w3) => (Raise r, w3)
                   end
              else (Ret None, w2)
          | (Raise r, w2) => (Raise r, w2)
          end
      | None => (Ret None, w1)
      end
  | (Raise r, w1) => (Raise r, w1)
  end.
Proof.
  unfold request. unfold mbind at 1. unfold M_bind at 1.
  destruct (initialize_gemini lib w) as [[model|r] w1]; [|done].
  destruct (ui_uploaded_file ui) as [f|]; [|done].
  unfold mbind at 1. unfold M_bind at 1.
  destruct (Image_open lib f w1) as [[image|r] w2]; [|done].
  destruct (ui_analyze ui); [|done].
  unfold mbind, M_bind.
  by destruct (analyze_food_image model image _ w2) as [[result|r] w3].
Qed.

(** A value [analyze_food_image] returns is one of its two dictionaries. *)
Lemma analyze_result_shape (model : GenerativeModel X) (image : loc)
    (user_notes : notes_arg) w w' (d : gmap string value) :
  analyze_food_image model image user_notes w = (Ret d, w') ->
  (exists t, d = success_dict t) \/ (exists m, d = failure_dict m).
Proof.
  rewrite analyze_food_image_cases. intros H.
  destruct (full_prompt user_notes) as [prompt|[e|b]]; [| |discriminate H].
  - destruct (generate_content model _ w) as [[response|[e|b]] w1]; [| |discriminate H].
    + destruct (text response) as [t|[e|b]]; [| |discriminate H].
      * apply ret_pair_inv in H as [<- _]; eauto.
      * apply analyze_handler_inv_ret in H as (m & _ & -> & _); eauto.
    + apply analyze_handler_inv_ret in H as (m & _ & -> & _); eauto.
  - apply analyze_handler_inv_ret in H as (m & _ & -> & _); eauto.
Qed.

Lemma request_result_shape lib ui w w' (d : gmap string value) :
  request lib ui w = (Ret (Some d), w') ->
  (exists t, d = success_dict t) \/ (exists m, d = failure_dict m).
Proof.
  rewrite request_cases. intros H.
  destruct (initialize_gemini lib w) as [[model|r] w1]; [|discriminate H].
  destruct (ui_uploaded_file ui) as [f|]; [|discriminate H].
  destruct (Image_open lib f w1) as [[image|r] w2]; [|discriminate H].
  destruct (ui_analyze ui); [|discriminate H].
  destruct (analyze_food_image model image _ w2) as [[result|r] w3] eqn:Ha;
    [|discriminate H].
  apply ret_pair_inv in H as [H _]. apply (inj Some) in H. subst result.
  by apply analyze_result_shape in Ha.
Qed.

Lemma request_log_shape lib uis : forall w,
  Forall (fun d => (exists t, d = success_dict t) \/ (exists m, d = failure_dict m))
         (request_log lib uis w).
Proof.
  induction uis as [|ui uis IH]; intros w; simpl; [constructor|].
  destruct (request lib ui w) as [[[d|]|r] w'] eqn:Hr; try apply IH.
  constructor; [by apply request_result_shape in Hr | apply IH].
Qed.

End Runs.

(** An error of the initialisation is not caught: when [initialize_gemini]
    raises, every run of [main] raises the same before anything is read or
    shown, whatever the widgets hold, and the stored result is left as it
    was. *)
Theorem main_initialization_error {X} (lib : Libraries X) (ui : widgets)
    (s : gmap string (gmap string value)) (w w1 : world X) (r : raised) :
  initialize_gemini lib w = (Raise r, w1) ->
  main lib ui (s, w) = (Raise r, (s, w1)).
Proof.
  intros Hi. unfold main. by rewrite request_cases, Hi.
Qed.

Lemma main_initialization_error_witness :
  main Sample.lib_unreadable Sample.ui_idle
    ({[ "result" := success_dict "- Items Detected:" ]}, Sample.w_key)
  = (Raise (Exc (mkExc "PermissionError" "[Errno 13] Permission denied")),
     ({[ "result" := success_dict "- Items Detected:" ]}, Sample.w_key)).
Proof.
  apply (main_initialization_error Sample.lib_unreadable Sample.ui_idle
           {[ "result" := success_dict "- Items Detected:" ]}
           Sample.w_key Sample.w_key).
  reflexivity.
Defined.

(** Opening the upload is outside the [try]: when [Image.open] raises on the
    uploaded file, [main] raises the same, no analysis is made and the
    stored result is left as it was. *)
Theorem main_image_open_error {X} (lib : Libraries X) (ui : widgets)
    (s : gmap string (gmap string value)) (w w1 w2 : world X)
    (model : GenerativeModel X) (f : list Byte.byte) (r : raised) :
  initialize_gemini lib w = (Ret model, w1) ->
  ui_uploaded_file ui = Some f ->
  Image_open lib f w1 = (Raise r, w2) ->
  main lib ui (s, w) = (Raise r, (s, w2)).
Proof.
  intros Hi Hf Ho. unfold main. by rewrite request_cases, Hi, Hf, Ho.
Qed.

Lemma main_image_open_error_witness :
  main Sample.lib_strict_image Sample.ui_bad_upload (∅, Sample.w_key)
  = (Raise (Exc (mkExc "UnidentifiedImageError" "cannot identify image file")),
     (∅, Sample.w_key)).
Proof.
  apply (main_image_open_error Sample.lib_strict_image Sample.ui_bad_upload ∅
           Sample.w_key Sample.w_key Sample.w_key Sample.model []).
  - reflexivity.
  - reflexivity.
  - reflexivity.
Defined.



(** What the session holds can always be shown: after any runs of a new
    session the second column never fails on a missing key.  It shows the
    hint while no request has returned, and otherwise the text or the
    message of the latest result, which is a member of the result type. *)
Theorem stored_result_renders {X} (lib : Libraries X) (uis : list widgets) (w : world X) :
  match last (request_log lib uis w) with
  | None => second_column (fst (reruns lib uis (∅, w))) = Ret None
  | Some d =>
      exists res,
        as_result d = Some res
        /\ second_column (fst (reruns lib uis (∅, w))) =
           Ret (Some match res with
                     | Success t => ShowAnalysis (VStr t)
                     | Failure m => ShowError (VStr m)
                     end)
  end.
Proof.
  rewrite reruns_session.
  destruct (last (request_log lib uis w)) as [d|] eqn:Hlast; [|done].
  assert ((exists t, d = success_dict t) \/ (exists m, d = failure_dict m)) as Hd.
  { apply last_Some in Hlast as [l Hl].
    pose proof (request_log_shape lib uis w) as Hall.
    rewrite Hl in Hall. apply Forall_app in Hall as [_ Hall].
    by inversion Hall. }
  unfold second_column. rewrite lookup_insert_eq.
  destruct Hd as [[t ->]|[m ->]].
  - by exists (Success t).
  - by exists (Failure m).
Qed.
